(** * Orion: the vendored New Relic agent configuration and its validation

    A shallow embedding of [vendor/github.com/newrelic/go-agent/config.go]:
    the [Config] struct, the constructor [NewConfig] and the method
    [Config.Validate], followed by the properties the specification states
    about them.

    Conventions of the embedding:
    - a Go [string] is a [string] of bytes, [len] is its byte length;
    - a Go [int] and a [time.Duration] (int64 nanoseconds) are [Z]; no
      operation of this file can overflow;
    - a nil slice is [[]], a nil interface value is [None], a
      [map[string]string] is a [gmap string string];
    - an [error] result is [option error], [None] standing for Go's [nil]. *)

From Stdlib Require Import ZArith Lia Ascii String.
From stdpp Require Import base strings gmap.

Set Implicit Arguments.

(** ** Go primitives used by the file *)

(** [len(s)] of a string: its number of bytes, as an [int]. *)
Definition len (s : string) : Z := Z.of_nat (String.length s).

(** [strings.Count(s, substr)] for a one-byte [substr], the only way
    [Validate] calls it: the number of bytes of [s] equal to that byte. *)
Fixpoint Count (s : string) (sep : ascii) : Z :=
  match s with
  | EmptyString => 0
  | String b s' => (if Ascii.eqb b sep then 1 else 0) + Count s' sep
  end%Z.

(** [strings.Join(elems, sep)]: how a caller writes several rollup names
    into one application name. No element for no names, the name itself for
    one, and the separator between every two for more. *)
Fixpoint Join (elems : list string) (sep : string) : string :=
  match elems with
  | [] => ""
  | x :: rest =>
      match rest with
      | [] => x
      | _ :: _ => String.append x (String.append sep (Join rest sep))
      end
  end.

(** [http.StatusNotFound]. *)
Definition StatusNotFound : Z := 404.

(** [time.Millisecond], in nanoseconds. *)
Definition Millisecond : Z := 1000000.

(** ** The nested structs of [Config] *)

Module AttributeDestinationConfig.
Record t : Type := mk { Enabled : bool; Include : list string; Exclude : list string }.
End AttributeDestinationConfig.

Module CustomInsightsEvents.
Record t : Type := mk { Enabled : bool }.
End CustomInsightsEvents.

Module TransactionEvents.
Record t : Type := mk { Enabled : bool; Attributes : AttributeDestinationConfig.t }.
End TransactionEvents.

Module ErrorCollector.
Record t : Type := mk {
  Enabled : bool;
  CaptureEvents : bool;
  IgnoreStatusCodes : list Z;
  Attributes : AttributeDestinationConfig.t }.
End ErrorCollector.

(** [TransactionTracer.Threshold]. *)
Module Threshold.
Record t : Type := mk { IsApdexFailing : bool; Duration : Z }.
End Threshold.

Module TransactionTracer.
Record t : Type := mk {
  Enabled : bool;
  Threshold : Threshold.t;
  SegmentThreshold : Z;
  StackTraceThreshold : Z;
  Attributes : AttributeDestinationConfig.t }.
End TransactionTracer.

Module Utilization.
Record t : Type := mk {
  DetectAWS : bool;
  DetectAzure : bool;
  DetectPCF : bool;
  DetectGCP : bool;
  DetectDocker : bool;
  DetectKubernetes : bool;
  LogicalProcessors : Z;
  TotalRAMMIB : Z;
  BillingHostname : string }.
End Utilization.

Module CrossApplicationTracer.
Record t : Type := mk { Enabled : bool }.
End CrossApplicationTracer.

Module DistributedTracer.
Record t : Type := mk { Enabled : bool }.
End DistributedTracer.

Module SpanEvents.
Record t : Type := mk { Enabled : bool }.
End SpanEvents.

(** [DatastoreTracer.SlowQuery]. *)
Module SlowQuery.
Record t : Type := mk { Enabled : bool; Threshold : Z }.
End SlowQuery.

(** The one-field structs [InstanceReporting], [DatabaseNameReporting] and
    [QueryParameters] of [DatastoreTracer] are written as their [Enabled]
    field. *)
Module DatastoreTracer.
Record t : Type := mk {
  InstanceReporting_Enabled : bool;
  DatabaseNameReporting_Enabled : bool;
  QueryParameters_Enabled : bool;
  SlowQuery : SlowQuery.t }.
End DatastoreTracer.

Module RuntimeSampler.
Record t : Type := mk { Enabled : bool }.
End RuntimeSampler.

(** ** The errors [Validate] returns *)

Inductive error : Type :=
  | errLicenseLen
  | errAppNameMissing
  | errAppNameLimit
  | errHighSecurityWithSecurityPolicies
  | errMixedTracers.

Definition licenseLength : Z := 40.
Definition appNameLimit : Z := 3.

(** The message each error carries ([err.Error()]); the two [fmt.Errorf]
    messages are written with their constant already formatted. *)
Definition Error (e : error) : string :=
  match e with
  | errLicenseLen => "license length is not 40"
  | errAppNameMissing => "string AppName required"
  | errAppNameLimit => "max of 3 rollup application names"
  | errHighSecurityWithSecurityPolicies =>
      "SecurityPoliciesToken and HighSecurity are incompatible; please ensure HighSecurity is set to false if SecurityPoliciesToken is a non-empty string and a security policy has been set for your account"
  | errMixedTracers =>
      "CrossApplicationTracer and DistributedTracer cannot be enabled simultaneously; please choose CrossApplicationTracer (available since v1.11) or DistributedTracer (available since v2.1)"
  end.

(** Early return: a statement either returns an error or falls through to
    the statements after it. *)
Definition return_if (b : bool) (e : error) : option error :=
  if b then Some e else None.

Definition and_then (s k : option error) : option error :=
  match s with
  | Some e => Some e
  | None => k
  end.

Notation "s ;;; k" := (and_then s k) (at level 100, right associativity).

(** ** The configuration *)

Section ConfigModel.

(** The implementations behind the two interface-typed fields, [Logger]
    (declared in log.go) and [http.RoundTripper]; neither [NewConfig] nor
    [Validate] looks inside them. *)
Variables Logger_t RoundTripper_t : Type.

Record Config : Type := mkConfig {
  AppName : string;
  License : string;
  Logger : option Logger_t;
  Enabled : bool;
  Labels : gmap string string;
  HighSecurity : bool;
  SecurityPoliciesToken : string;
  CustomInsightsEvents : CustomInsightsEvents.t;
  TransactionEvents : TransactionEvents.t;
  ErrorCollector : ErrorCollector.t;
  TransactionTracer : TransactionTracer.t;
  HostDisplayName : string;
  Transport : option RoundTripper_t;
  Utilization : Utilization.t;
  CrossApplicationTracer : CrossApplicationTracer.t;
  DistributedTracer : DistributedTracer.t;
  SpanEvents : SpanEvents.t;
  DatastoreTracer : DatastoreTracer.t;
  Attributes : AttributeDestinationConfig.t;
  RuntimeSampler : RuntimeSampler.t }.

(** [NewConfig(appname, license)]: the zero value [Config{}] with the
    assignments of the function's body applied; a field the body does not
    assign keeps its zero value ([false], [0], the empty string, [nil]). *)
Definition NewConfig (appname license : string) : Config :=
  {| AppName := appname;
     License := license;
     Logger := None;
     Enabled := true;
     Labels := ∅;
     HighSecurity := false;
     SecurityPoliciesToken := "";
     CustomInsightsEvents := CustomInsightsEvents.mk true;
     TransactionEvents :=
       TransactionEvents.mk true (AttributeDestinationConfig.mk true [] []);
     ErrorCollector :=
       ErrorCollector.mk true true [StatusNotFound]
         (AttributeDestinationConfig.mk true [] []);
     TransactionTracer :=
       TransactionTracer.mk true
         (Threshold.mk true (500 * Millisecond))
         (2 * Millisecond)
         (500 * Millisecond)
         (AttributeDestinationConfig.mk true [] []);
     HostDisplayName := "";
     Transport := None;
     Utilization := Utilization.mk true true true true true true 0 0 "";
     CrossApplicationTracer := CrossApplicationTracer.mk true;
     DistributedTracer := DistributedTracer.mk false;
     SpanEvents := SpanEvents.mk true;
     DatastoreTracer :=
       DatastoreTracer.mk true true true (SlowQuery.mk true (10 * Millisecond));
     Attributes := AttributeDestinationConfig.mk true [] [];
     RuntimeSampler := RuntimeSampler.mk true |}%Z.

(** [c.Validate()]. *)
Definition Validate (c : Config) : option error :=
  (if Enabled c then
     return_if (negb (len (License c) =? licenseLength)%Z) errLicenseLen
   else
     return_if (negb (len (License c) =? licenseLength)%Z
                && negb (len (License c) =? 0)%Z) errLicenseLen) ;;;
  return_if (String.eqb "" (AppName c) && Enabled c) errAppNameMissing ;;;
  return_if (HighSecurity c && negb (String.eqb "" (SecurityPoliciesToken c)))
    errHighSecurityWithSecurityPolicies ;;;
  return_if (CrossApplicationTracer.Enabled (CrossApplicationTracer c)
             && DistributedTracer.Enabled (DistributedTracer c))
    errMixedTracers ;;;
  return_if (Count (AppName c) ";" >=? appNameLimit)%Z errAppNameLimit ;;;
  None.

(** The caller's field assignments used below ([c.Enabled = b] and the
    like): the configuration with one field replaced. *)
Definition set_Enabled (b : bool) (c : Config) : Config :=
  mkConfig (AppName c) (License c) (Logger c) b (Labels c)
    (HighSecurity c) (SecurityPoliciesToken c) (CustomInsightsEvents c)
    (TransactionEvents c) (ErrorCollector c) (TransactionTracer c)
    (HostDisplayName c) (Transport c) (Utilization c)
    (CrossApplicationTracer c) (DistributedTracer c) (SpanEvents c)
    (DatastoreTracer c) (Attributes c) (RuntimeSampler c).

Definition set_HighSecurity (b : bool) (c : Config) : Config :=
  mkConfig (AppName c) (License c) (Logger c) (Enabled c) (Labels c)
    b (SecurityPoliciesToken c) (CustomInsightsEvents c)
    (TransactionEvents c) (ErrorCollector c) (TransactionTracer c)
    (HostDisplayName c) (Transport c) (Utilization c)
    (CrossApplicationTracer c) (DistributedTracer c) (SpanEvents c)
    (DatastoreTracer c) (Attributes c) (RuntimeSampler c).

Definition set_SecurityPoliciesToken (tok : string) (c : Config) : Config :=
  mkConfig (AppName c) (License c) (Logger c) (Enabled c) (Labels c)
    (HighSecurity c) tok (CustomInsightsEvents c)
    (TransactionEvents c) (ErrorCollector c) (TransactionTracer c)
    (HostDisplayName c) (Transport c) (Utilization c)
    (CrossApplicationTracer c) (DistributedTracer c) (SpanEvents c)
    (DatastoreTracer c) (Attributes c) (RuntimeSampler c).

Definition set_DistributedTracer_Enabled (b : bool) (c : Config) : Config :=
  mkConfig (AppName c) (License c) (Logger c) (Enabled c) (Labels c)
    (HighSecurity c) (SecurityPoliciesToken c) (CustomInsightsEvents c)
    (TransactionEvents c) (ErrorCollector c) (TransactionTracer c)
    (HostDisplayName c) (Transport c) (Utilization c)
    (CrossApplicationTracer c) (DistributedTracer.mk b) (SpanEvents c)
    (DatastoreTracer c) (Attributes c) (RuntimeSampler c).

Definition set_CrossApplicationTracer_Enabled (b : bool) (c : Config)
  : Config :=
  mkConfig (AppName c) (License c) (Logger c) (Enabled c) (Labels c)
    (HighSecurity c) (SecurityPoliciesToken c) (CustomInsightsEvents c)
    (TransactionEvents c) (ErrorCollector c) (TransactionTracer c)
    (HostDisplayName c) (Transport c) (Utilization c)
    (CrossApplicationTracer.mk b) (DistributedTracer c) (SpanEvents c)
    (DatastoreTracer c) (Attributes c) (RuntimeSampler c).

(** ** The specification's reading of validation

    The five invariants of the data model in the order the validator
    evaluates them, what each one requires of a configuration, and the
    rejection reason it maps to. These definitions follow the
    specification's words, not the code; the theorems compare them with
    [Validate]. *)

Inductive invariant : Type :=
  | CredentialLength
  | ApplicationNamePresent
  | SecurityPosture
  | TracingStrategy
  | RollupNames.

Definition spec_order : list invariant :=
  [CredentialLength; ApplicationNamePresent; SecurityPosture;
   TracingStrategy; RollupNames].

(** The position of an invariant in the evaluation order, from 1. *)
Definition rank (i : invariant) : nat :=
  match i with
  | CredentialLength => 1
  | ApplicationNamePresent => 2
  | SecurityPosture => 3
  | TracingStrategy => 4
  | RollupNames => 5
  end.

(** [spec_holds i c]: configuration [c] satisfies invariant [i].
    - the credential is exactly the required length, or the agent is
      disabled and the credential is empty;
    - the application name is non-empty when the agent is enabled;
    - high security and a non-empty security-policy token do not both hold;
    - the two tracing strategies are not both enabled;
    - the number of delimiters of the application name is below the limit. *)
Definition spec_holds (i : invariant) (c : Config) : bool :=
  match i with
  | CredentialLength =>
      (len (License c) =? licenseLength)%Z
      || (negb (Enabled c) && (len (License c) =? 0)%Z)
  | ApplicationNamePresent =>
      negb (Enabled c) || negb (String.eqb (AppName c) "")
  | SecurityPosture =>
      negb (HighSecurity c && negb (String.eqb (SecurityPoliciesToken c) ""))
  | TracingStrategy =>
      negb (CrossApplicationTracer.Enabled (CrossApplicationTracer c)
            && DistributedTracer.Enabled (DistributedTracer c))
  | RollupNames => (Count (AppName c) ";" <? appNameLimit)%Z
  end.

(** CredentialLengthInvalid, ApplicationNameRequired, SecurityPolicyConflict,
    TracingStrategyConflict and TooManyRollupNames. *)
Definition spec_reason (i : invariant) : error :=
  match i with
  | CredentialLength => errLicenseLen
  | ApplicationNamePresent => errAppNameMissing
  | SecurityPosture => errHighSecurityWithSecurityPolicies
  | TracingStrategy => errMixedTracers
  | RollupNames => errAppNameLimit
  end.

(** The reason of the first invariant of [order] that [c] violates, if any. *)
Definition spec_firstViolation (order : list invariant) (c : Config)
  : option error :=
  option_map spec_reason (List.find (fun i => negb (spec_holds i c)) order).

(** Runs [Validate] through the field reads of a configuration built by
    [NewConfig] and the assignments above. *)
Ltac validate_fields :=
  unfold Validate, return_if, and_then, set_Enabled, set_HighSecurity,
    set_SecurityPoliciesToken, set_DistributedTracer_Enabled,
    set_CrossApplicationTracer_Enabled, NewConfig;
  cbn [AppName License Enabled HighSecurity SecurityPoliciesToken
       CrossApplicationTracer DistributedTracer
       CrossApplicationTracer.Enabled DistributedTracer.Enabled].

Unset Implicit Arguments.

(** ** Facts about the primitives *)

Lemma len_nonneg (s : string) : (0 <= len s)%Z.
Proof. unfold len. apply Nat2Z.is_nonneg. Qed.

Lemma len_zero_iff (s : string) : len s = 0%Z <-> s = "".
Proof.
  unfold len. destruct s as [|b s]; simpl.
  - split; reflexivity.
  - split; [lia | discriminate].
Qed.

Lemma Count_nonneg (s : string) (sep : ascii) : (0 <= Count s sep)%Z.
Proof.
  induction s as [|b s IH]; simpl.
  - reflexivity.
  - destruct (Ascii.eqb b sep); lia.
Qed.

Lemma Count_le_len (s : string) (sep : ascii) : (Count s sep <= len s)%Z.
Proof.
  unfold len. induction s as [|b s IH]; simpl String.length; simpl Count.
  - reflexivity.
  - rewrite Nat2Z.inj_succ. destruct (Ascii.eqb b sep); lia.
Qed.

Lemma eqb_empty_false (s : string) : s <> "" -> String.eqb "" s = false.
Proof. intros Hs. apply String.eqb_neq. congruence. Qed.

Lemma geb_as_ltb (x y : Z) : (x >=? y)%Z = negb (x <? y)%Z.
Proof. rewrite Z.geb_leb, Z.ltb_antisym, negb_involutive. reflexivity. Qed.

(** The five errors carry five different messages. *)
Lemma Error_inj (e1 e2 : error) : Error e1 = Error e2 -> e1 = e2.
Proof. destruct e1, e2; intros H; first [reflexivity | discriminate H]. Qed.

(** ** [Validate] is the specification's first-violation search *)

Lemma Validate_first_violation (c : Config) :
  Validate c = spec_firstViolation spec_order c.
Proof.
  unfold Validate, spec_firstViolation, spec_order, return_if, and_then.
  cbn [List.find spec_holds option_map spec_reason].
  rewrite geb_as_ltb, !(String.eqb_sym "").
  destruct (Enabled c), (len (License c) =? licenseLength)%Z,
    (len (License c) =? 0)%Z, (String.eqb (AppName c) ""),
    (HighSecurity c), (String.eqb (SecurityPoliciesToken c) ""),
    (CrossApplicationTracer.Enabled (CrossApplicationTracer c)),
    (DistributedTracer.Enabled (DistributedTracer c)),
    (Count (AppName c) ";" <? appNameLimit)%Z; reflexivity.
Qed.

Lemma firstViolation_holds (i : invariant) (l : list invariant) (c : Config) :
  spec_holds i c = true ->
  spec_firstViolation (i :: l) c = spec_firstViolation l c.
Proof. intros Hi. unfold spec_firstViolation. simpl. rewrite Hi. reflexivity. Qed.

Lemma firstViolation_violated (i : invariant) (l : list invariant) (c : Config) :
  spec_holds i c = false ->
  spec_firstViolation (i :: l) c = Some (spec_reason i).
Proof. intros Hi. unfold spec_firstViolation. simpl. rewrite Hi. reflexivity. Qed.

Lemma spec_reason_inj (i j : invariant) : spec_reason i = spec_reason j -> i = j.
Proof. destruct i, j; simpl; intros H; first [reflexivity | discriminate H]. Qed.

(** A violated invariant whose predecessors all hold is the one reported. *)
Lemma Validate_reports (i : invariant) (c : Config) :
  (forall j, rank j < rank i -> spec_holds j c = true) ->
  spec_holds i c = false ->
  Validate c = Some (spec_reason i).
Proof.
  intros Hbefore Hi. rewrite Validate_first_violation. unfold spec_order.
  destruct i;
    repeat first
      [ rewrite firstViolation_violated by exact Hi; reflexivity
      | rewrite firstViolation_holds by (apply Hbefore; simpl; lia) ].
Qed.

(** Whatever [Validate] reports is violated, and nothing before it is. *)
Lemma Validate_sound (c : Config) (e : error) :
  Validate c = Some e ->
  exists i, e = spec_reason i /\ spec_holds i c = false
            /\ forall j, rank j < rank i -> spec_holds j c = true.
Proof.
  rewrite Validate_first_violation. unfold spec_order.
  destruct (spec_holds CredentialLength c) eqn:H1;
    [rewrite (firstViolation_holds _ _ _ H1)
    |rewrite (firstViolation_violated _ _ _ H1)].
  2:{ intros [= <-]. exists CredentialLength. repeat split; trivial.
      intros j Hj. destruct j; simpl in Hj; lia. }
  destruct (spec_holds ApplicationNamePresent c) eqn:H2;
    [rewrite (firstViolation_holds _ _ _ H2)
    |rewrite (firstViolation_violated _ _ _ H2)].
  2:{ intros [= <-]. exists ApplicationNamePresent. repeat split; trivial.
      intros j Hj. destruct j; simpl in Hj; trivial; lia. }
  destruct (spec_holds SecurityPosture c) eqn:H3;
    [rewrite (firstViolation_holds _ _ _ H3)
    |rewrite (firstViolation_violated _ _ _ H3)].
  2:{ intros [= <-]. exists SecurityPosture. repeat split; trivial.
      intros j Hj. destruct j; simpl in Hj; trivial; lia. }
  destruct (spec_holds TracingStrategy c) eqn:H4;
    [rewrite (firstViolation_holds _ _ _ H4)
    |rewrite (firstViolation_violated _ _ _ H4)].
  2:{ intros [= <-]. exists TracingStrategy. repeat split; trivial.
      intros j Hj. destruct j; simpl in Hj; trivial; lia. }
  destruct (spec_holds RollupNames c) eqn:H5;
    [rewrite (firstViolation_holds _ _ _ H5)
    |rewrite (firstViolation_violated _ _ _ H5)].
  2:{ intros [= <-]. exists RollupNames. repeat split; trivial.
      intros j Hj. destruct j; simpl in Hj; trivial; lia. }
  discriminate.
Qed.

Lemma Validate_accepts (c : Config) :
  (forall i, spec_holds i c = true) -> Validate c = None.
Proof.
  intros Hall. rewrite Validate_first_violation. unfold spec_order.
  rewrite !firstViolation_holds by apply Hall. reflexivity.
Qed.

(** The invariants in terms of the fields. *)
Lemma credential_holds_iff (c : Config) :
  spec_holds CredentialLength c = true <->
  len (License c) = licenseLength \/ (Enabled c = false /\ License c = "").
Proof.
  simpl. rewrite orb_true_iff, andb_true_iff, negb_true_iff, !Z.eqb_eq,
    len_zero_iff. reflexivity.
Qed.

Lemma application_name_holds_iff (c : Config) :
  spec_holds ApplicationNamePresent c = true <->
  (Enabled c = true -> AppName c <> "").
Proof.
  simpl. rewrite orb_true_iff, !negb_true_iff, String.eqb_neq.
  destruct (Enabled c); split; intros H.
  - destruct H as [H|H]; [discriminate H | intros _; exact H].
  - right. apply H. reflexivity.
  - intros Hen. discriminate Hen.
  - left. reflexivity.
Qed.

Lemma security_posture_violated_iff (c : Config) :
  spec_holds SecurityPosture c = false <->
  HighSecurity c = true /\ SecurityPoliciesToken c <> "".
Proof.
  simpl. rewrite negb_false_iff, andb_true_iff, negb_true_iff, String.eqb_neq.
  reflexivity.
Qed.

Lemma tracing_strategy_violated_iff (c : Config) :
  spec_holds TracingStrategy c = false <->
  CrossApplicationTracer.Enabled (CrossApplicationTracer c) = true
  /\ DistributedTracer.Enabled (DistributedTracer c) = true.
Proof. simpl. rewrite negb_false_iff, andb_true_iff. reflexivity. Qed.

Lemma rollup_names_holds_iff (c : Config) :
  spec_holds RollupNames c = true <->
  (Count (AppName c) ";" < appNameLimit)%Z.
Proof. simpl. apply Z.ltb_lt. Qed.

(** ** Defaults pass validation *)

(** C1. For every application name that is non-empty and has fewer ';'
    delimiters than the limit, and every credential of exactly the required
    length of 40 bytes, [Validate] accepts [NewConfig name credential]. *)
Theorem C1_Validate_NewConfig_ok (name credential : string) :
  name <> "" ->
  (Count name ";" < appNameLimit)%Z ->
  len credential = licenseLength ->
  Validate (NewConfig name credential) = None.
Proof.
  intros Hname Hcount Hlen.
  unfold Validate, return_if, and_then. cbn [NewConfig Enabled License AppName
    HighSecurity SecurityPoliciesToken CrossApplicationTracer DistributedTracer
    CrossApplicationTracer.Enabled DistributedTracer.Enabled].
  rewrite Hlen, Z.eqb_refl. cbn [negb].
  rewrite (eqb_empty_false name Hname). cbn [andb negb].
  rewrite geb_as_ltb. apply Z.ltb_lt in Hcount. rewrite Hcount. reflexivity.
Qed.

(** ** The order of the checks *)

(** C2. [Validate] reports the reason of the first violated invariant in the
    order credential length, application name, security posture, tracing
    strategy, rollup names: it equals the specification's first-violation
    search; a violated invariant whose predecessors hold is the one
    reported; and when two invariants are violated the later one is never
    the one reported. *)
Theorem C2_first_violation_reported (c : Config) :
  Validate c = spec_firstViolation spec_order c
  /\ (forall i, spec_holds i c = false ->
                (forall j, rank j < rank i -> spec_holds j c = true) ->
                Validate c = Some (spec_reason i))
  /\ (forall i j, rank i < rank j ->
                  spec_holds i c = false -> spec_holds j c = false ->
                  Validate c <> Some (spec_reason j)).
Proof.
  split; [apply Validate_first_violation | split].
  - intros i Hi Hbefore. apply Validate_reports; assumption.
  - intros i j Hij Hi Hj Hrep.
    destruct (Validate_sound c _ Hrep) as (k & Hk & _ & Hbefore).
    apply spec_reason_inj in Hk. subst k.
    rewrite (Hbefore i Hij) in Hi. discriminate Hi.
Qed.

(** ** The credential check *)

(** C3. Enabled with a credential whose length is not 40 (the empty one
    included): rejected with [errLicenseLen]. Disabled: the empty credential
    and a credential of length 40 pass the credential check, so that the
    result is decided by the four later checks alone, and every other length
    is rejected with [errLicenseLen]. *)
Theorem C3_credential_check (c : Config) :
  (Enabled c = true -> len (License c) <> licenseLength ->
   Validate c = Some errLicenseLen)
  /\ (Enabled c = false ->
      License c = "" \/ len (License c) = licenseLength ->
      Validate c <> Some errLicenseLen
      /\ Validate c =
           spec_firstViolation
             [ApplicationNamePresent; SecurityPosture; TracingStrategy;
              RollupNames] c)
  /\ (Enabled c = false ->
      License c <> "" -> len (License c) <> licenseLength ->
      Validate c = Some errLicenseLen).
Proof.
  split; [|split].
  - intros Hen Hlen. unfold Validate. rewrite Hen.
    apply Z.eqb_neq in Hlen. rewrite Hlen. reflexivity.
  - intros Hen Hlic.
    assert (Hcred : spec_holds CredentialLength c = true).
    { apply credential_holds_iff. destruct Hlic as [Hlic|Hlic]; auto. }
    assert (Hrest : Validate c =
                    spec_firstViolation
                      [ApplicationNamePresent; SecurityPosture;
                       TracingStrategy; RollupNames] c).
    { rewrite Validate_first_violation. apply firstViolation_holds, Hcred. }
    split; [|exact Hrest].
    intros Hrep. destruct (Validate_sound c _ Hrep) as (k & Hk & Hviol & _).
    apply (spec_reason_inj CredentialLength) in Hk. subst k.
    rewrite Hcred in Hviol. discriminate Hviol.
  - intros Hen Hne Hlen. unfold Validate. rewrite Hen.
    apply Z.eqb_neq in Hlen. rewrite Hlen.
    assert (H0 : (len (License c) =? 0)%Z = false).
    { apply Z.eqb_neq. rewrite len_zero_iff. exact Hne. }
    rewrite H0. reflexivity.
Qed.

(** ** The application-name check *)

(** C4, as amended. For every configuration with the enabled flag true, an
    empty application name and a credential of exactly the required length,
    [Validate] returns [errAppNameMissing]. (The credential is checked
    first: without the last condition the result is [errLicenseLen].) *)
Theorem C4_empty_name_after_credential (c : Config) :
  Enabled c = true ->
  AppName c = "" ->
  len (License c) = licenseLength ->
  Validate c = Some errAppNameMissing.
Proof.
  intros Hen Hname Hlen. unfold Validate.
  rewrite Hen, Hname, Hlen. reflexivity.
Qed.

(** ** The security-policy check *)

(** C5, as amended. For every configuration with the high-security flag
    true and a non-empty security-policy token that passes the two earlier
    checks (credential length, application name), [Validate] returns
    [errHighSecurityWithSecurityPolicies], whatever the tracing flags, the
    number of rollup names and all remaining fields are. *)
Theorem C5_security_policy_conflict (c : Config) :
  HighSecurity c = true ->
  SecurityPoliciesToken c <> "" ->
  spec_holds CredentialLength c = true ->
  spec_holds ApplicationNamePresent c = true ->
  Validate c = Some errHighSecurityWithSecurityPolicies.
Proof.
  intros Hhs Htok Hcred Hname.
  apply (Validate_reports SecurityPosture).
  - intros j Hj. destruct j; simpl in Hj; first [assumption | lia].
  - apply security_posture_violated_iff. split; assumption.
Qed.

(** ** The tracing-strategy check *)

Lemma Validate_mixed_tracers (c : Config) :
  spec_holds CredentialLength c = true ->
  spec_holds ApplicationNamePresent c = true ->
  spec_holds SecurityPosture c = true ->
  CrossApplicationTracer.Enabled (CrossApplicationTracer c) = true ->
  DistributedTracer.Enabled (DistributedTracer c) = true ->
  Validate c = Some errMixedTracers.
Proof.
  intros H1 H2 H3 Hcat Hdt.
  apply (Validate_reports TracingStrategy).
  - intros j Hj. destruct j; simpl in Hj; first [assumption | lia].
  - apply tracing_strategy_violated_iff. split; assumption.
Qed.

(** C6. A default-built configuration with a valid name and credential in
    which the caller enables distributed tracing (cross-application tracing
    being enabled by default) has both tracing strategies enabled and every
    other field at its default; [Validate] returns [errMixedTracers]. *)
Theorem C6_mixed_tracers_on_defaults (name credential : string) :
  name <> "" ->
  (Count name ";" < appNameLimit)%Z ->
  len credential = licenseLength ->
  let c := set_DistributedTracer_Enabled true (NewConfig name credential) in
  CrossApplicationTracer.Enabled (CrossApplicationTracer c) = true
  /\ DistributedTracer.Enabled (DistributedTracer c) = true
  /\ Validate c = Some errMixedTracers.
Proof.
  intros Hname _ Hlen c. split; [reflexivity | split; [reflexivity |]].
  apply Validate_mixed_tracers; try reflexivity.
  - apply credential_holds_iff. left. exact Hlen.
  - apply application_name_holds_iff. intros _. exact Hname.
Qed.

(** ** The rollup-name check *)

(** C7. For every configuration passing the four earlier checks, [Validate]
    returns [errAppNameLimit] exactly when the application name has 3 or
    more ';' delimiters, and accepts otherwise; an otherwise-valid
    configuration named "a;b;c" (two delimiters) is accepted and one named
    "a;b;c;d" (three delimiters) is rejected with [errAppNameLimit]. *)
Theorem C7_rollup_name_limit (c : Config) :
  spec_holds CredentialLength c = true ->
  spec_holds ApplicationNamePresent c = true ->
  spec_holds SecurityPosture c = true ->
  spec_holds TracingStrategy c = true ->
  (Validate c = Some errAppNameLimit <->
   (Count (AppName c) ";" >= appNameLimit)%Z)
  /\ ((Count (AppName c) ";" < appNameLimit)%Z -> Validate c = None)
  /\ (AppName c = "a;b;c" ->
      Count (AppName c) ";" = 2%Z /\ Validate c = None)
  /\ (AppName c = "a;b;c;d" ->
      Count (AppName c) ";" = 3%Z /\ Validate c = Some errAppNameLimit).
Proof.
  intros H1 H2 H3 H4.
  assert (Hfour : forall j, rank j < rank RollupNames -> spec_holds j c = true).
  { intros j Hj. destruct j; simpl in Hj; first [assumption | lia]. }
  assert (Hover : (Count (AppName c) ";" >= appNameLimit)%Z ->
                  Validate c = Some errAppNameLimit).
  { intros Hge. apply (Validate_reports RollupNames c Hfour).
    simpl. apply Z.ltb_ge. lia. }
  assert (Hunder : (Count (AppName c) ";" < appNameLimit)%Z ->
                   Validate c = None).
  { intros Hlt. apply Validate_accepts. intros i.
    destruct i; first [assumption | apply rollup_names_holds_iff, Hlt]. }
  split; [split; [|exact Hover] | split; [exact Hunder | split]].
  - intros Hrej.
    destruct (Z_lt_ge_dec (Count (AppName c) ";") appNameLimit) as [Hlt|Hge];
      [|exact Hge].
    rewrite (Hunder Hlt) in Hrej. discriminate Hrej.
  - intros Hname. split; [rewrite Hname; reflexivity |].
    apply Hunder. rewrite Hname. reflexivity.
  - intros Hname. split; [rewrite Hname; reflexivity |].
    apply Hover. rewrite Hname. discriminate.
Qed.

(** ** The defaults *)

(** C8. Whatever the name and credential, [NewConfig] enables every feature
    group (custom events, transaction events, error collection and its
    events, transaction tracing, span events, the four datastore-tracing
    toggles, runtime sampling, the six host-environment detections,
    cross-application tracing, and with them the four attribute filters and
    the agent itself) and disables distributed tracing; the status codes the
    error collector ignores are exactly 404. *)
Theorem C8_NewConfig_defaults (appName credential : string) :
  let c := NewConfig appName credential in
  CustomInsightsEvents.Enabled (CustomInsightsEvents c) = true
  /\ TransactionEvents.Enabled (TransactionEvents c) = true
  /\ ErrorCollector.Enabled (ErrorCollector c) = true
  /\ ErrorCollector.CaptureEvents (ErrorCollector c) = true
  /\ TransactionTracer.Enabled (TransactionTracer c) = true
  /\ SpanEvents.Enabled (SpanEvents c) = true
  /\ DatastoreTracer.InstanceReporting_Enabled (DatastoreTracer c) = true
  /\ DatastoreTracer.DatabaseNameReporting_Enabled (DatastoreTracer c) = true
  /\ DatastoreTracer.QueryParameters_Enabled (DatastoreTracer c) = true
  /\ SlowQuery.Enabled (DatastoreTracer.SlowQuery (DatastoreTracer c)) = true
  /\ RuntimeSampler.Enabled (RuntimeSampler c) = true
  /\ Utilization.DetectAWS (Utilization c) = true
  /\ Utilization.DetectAzure (Utilization c) = true
  /\ Utilization.DetectPCF (Utilization c) = true
  /\ Utilization.DetectGCP (Utilization c) = true
  /\ Utilization.DetectDocker (Utilization c) = true
  /\ Utilization.DetectKubernetes (Utilization c) = true
  /\ CrossApplicationTracer.Enabled (CrossApplicationTracer c) = true
  /\ AttributeDestinationConfig.Enabled
       (TransactionEvents.Attributes (TransactionEvents c)) = true
  /\ AttributeDestinationConfig.Enabled
       (ErrorCollector.Attributes (ErrorCollector c)) = true
  /\ AttributeDestinationConfig.Enabled
       (TransactionTracer.Attributes (TransactionTracer c)) = true
  /\ AttributeDestinationConfig.Enabled (Attributes c) = true
  /\ Enabled c = true
  /\ DistributedTracer.Enabled (DistributedTracer c) = false
  /\ ErrorCollector.IgnoreStatusCodes (ErrorCollector c) = [404%Z]
  /\ (forall code : Z,
        In code (ErrorCollector.IgnoreStatusCodes (ErrorCollector c)) <->
        code = 404%Z).
Proof.
  intros c. subst c. cbn.
  repeat (split; [reflexivity |]).
  intros code. unfold StatusNotFound. split.
  - intros [Hcode | []]. symmetry. exact Hcode.
  - intros ->. left. reflexivity.
Qed.

(** ** What [Validate] depends on *)

(** C9. Two configurations that agree on [Enabled], [License], [AppName],
    [HighSecurity], [SecurityPoliciesToken], [CrossApplicationTracer.Enabled]
    and [DistributedTracer.Enabled] get the same result from [Validate],
    however their other fields differ. *)
Theorem C9_Validate_reads_seven_fields (c1 c2 : Config) :
  Enabled c1 = Enabled c2 ->
  License c1 = License c2 ->
  AppName c1 = AppName c2 ->
  HighSecurity c1 = HighSecurity c2 ->
  SecurityPoliciesToken c1 = SecurityPoliciesToken c2 ->
  CrossApplicationTracer.Enabled (CrossApplicationTracer c1)
  = CrossApplicationTracer.Enabled (CrossApplicationTracer c2) ->
  DistributedTracer.Enabled (DistributedTracer c1)
  = DistributedTracer.Enabled (DistributedTracer c2) ->
  Validate c1 = Validate c2.
Proof.
  intros Hen Hlic Hname Hhs Htok Hcat Hdt. unfold Validate.
  rewrite Hen, Hlic, Hname, Hhs, Htok, Hcat, Hdt. reflexivity.
Qed.

(** ** Disabled configurations *)

(** C10, as amended. For every configuration with the enabled flag false:
    [Validate] never returns [errAppNameMissing] (the empty-name check is
    skipped); with an empty application name it accepts, provided the
    credential, security-posture and tracing checks pass; and the rollup
    limit is still enforced: with 3 or more ';' delimiters in the name it
    returns [errAppNameLimit], provided the same three checks pass. *)
Theorem C10_disabled_name_checks (c : Config) :
  Enabled c = false ->
  Validate c <> Some errAppNameMissing
  /\ (AppName c = "" ->
      spec_holds CredentialLength c = true ->
      spec_holds SecurityPosture c = true ->
      spec_holds TracingStrategy c = true ->
      Validate c = None)
  /\ ((Count (AppName c) ";" >= appNameLimit)%Z ->
      spec_holds CredentialLength c = true ->
      spec_holds SecurityPosture c = true ->
      spec_holds TracingStrategy c = true ->
      Validate c = Some errAppNameLimit).
Proof.
  intros Hen.
  assert (Hname : spec_holds ApplicationNamePresent c = true).
  { apply application_name_holds_iff. rewrite Hen. discriminate. }
  split; [|split].
  - intros Hrep. destruct (Validate_sound c _ Hrep) as (k & Hk & Hviol & _).
    apply (spec_reason_inj ApplicationNamePresent) in Hk. subst k.
    rewrite Hname in Hviol. discriminate Hviol.
  - intros Hempty H1 H3 H4. apply Validate_accepts. intros i.
    destruct i; try assumption.
    apply rollup_names_holds_iff. rewrite Hempty. reflexivity.
  - intros Hge H1 H3 H4. apply (Validate_reports RollupNames).
    + intros j Hj. destruct j; simpl in Hj; first [assumption | lia].
    + simpl. apply Z.ltb_ge. lia.
Qed.

(** ** Exactly when [Validate] accepts and rejects *)

Lemma Validate_None_iff (c : Config) :
  Validate c = None <-> forall i, spec_holds i c = true.
Proof.
  split; [|apply Validate_accepts].
  intros Hnone i. destruct (spec_holds i c) eqn:Hi; [reflexivity | exfalso].
  assert (Hsome : exists e, Validate c = Some e).
  { clear Hnone. rewrite Validate_first_violation. unfold spec_order.
    destruct (spec_holds CredentialLength c) eqn:H1;
      [|eexists; apply firstViolation_violated, H1].
    rewrite (firstViolation_holds _ _ _ H1).
    destruct (spec_holds ApplicationNamePresent c) eqn:H2;
      [|eexists; apply firstViolation_violated, H2].
    rewrite (firstViolation_holds _ _ _ H2).
    destruct (spec_holds SecurityPosture c) eqn:H3;
      [|eexists; apply firstViolation_violated, H3].
    rewrite (firstViolation_holds _ _ _ H3).
    destruct (spec_holds TracingStrategy c) eqn:H4;
      [|eexists; apply firstViolation_violated, H4].
    rewrite (firstViolation_holds _ _ _ H4).
    destruct (spec_holds RollupNames c) eqn:H5;
      [|eexists; apply firstViolation_violated, H5].
    destruct i; congruence. }
  destruct Hsome as [e He]. congruence.
Qed.

Lemma Validate_Some_iff (c : Config) (i : invariant) :
  Validate c = Some (spec_reason i) <->
  spec_holds i c = false /\ forall j, rank j < rank i -> spec_holds j c = true.
Proof.
  split.
  - intros Hrep. destruct (Validate_sound c _ Hrep) as (k & Hk & Hviol & Hbefore).
    apply spec_reason_inj in Hk. subst k. split; assumption.
  - intros [Hviol Hbefore]. apply Validate_reports; assumption.
Qed.

Lemma credential_violated_iff (c : Config) :
  spec_holds CredentialLength c = false <->
  len (License c) <> licenseLength /\ (Enabled c = true \/ License c <> "").
Proof.
  simpl. rewrite orb_false_iff, andb_false_iff, negb_false_iff, !Z.eqb_neq,
    len_zero_iff. reflexivity.
Qed.

Lemma application_name_violated_iff (c : Config) :
  spec_holds ApplicationNamePresent c = false <->
  Enabled c = true /\ AppName c = "".
Proof.
  simpl. rewrite orb_false_iff, !negb_false_iff, String.eqb_eq. reflexivity.
Qed.

Lemma security_posture_holds_iff (c : Config) :
  spec_holds SecurityPosture c = true <->
  ~ (HighSecurity c = true /\ SecurityPoliciesToken c <> "").
Proof.
  rewrite <- security_posture_violated_iff.
  destruct (spec_holds SecurityPosture c); split; congruence.
Qed.

Lemma tracing_strategy_holds_iff (c : Config) :
  spec_holds TracingStrategy c = true <->
  ~ (CrossApplicationTracer.Enabled (CrossApplicationTracer c) = true
     /\ DistributedTracer.Enabled (DistributedTracer c) = true).
Proof.
  rewrite <- tracing_strategy_violated_iff.
  destruct (spec_holds TracingStrategy c); split; congruence.
Qed.

Lemma rollup_names_violated_iff (c : Config) :
  spec_holds RollupNames c = false <->
  (Count (AppName c) ";" >= appNameLimit)%Z.
Proof. simpl. rewrite Z.ltb_ge. lia. Qed.

(** X1. [Validate] returns nil exactly for the configurations whose
    credential has 40 bytes (or is empty, the agent being disabled), whose
    name is non-empty when the agent is enabled, that do not combine high
    security with a security-policy token, that do not enable both tracers,
    and whose name has fewer than 3 ';'. *)
Theorem X1_Validate_accepts_iff (c : Config) :
  Validate c = None <->
  (len (License c) = licenseLength \/ (Enabled c = false /\ License c = ""))
  /\ (Enabled c = true -> AppName c <> "")
  /\ ~ (HighSecurity c = true /\ SecurityPoliciesToken c <> "")
  /\ ~ (CrossApplicationTracer.Enabled (CrossApplicationTracer c) = true
        /\ DistributedTracer.Enabled (DistributedTracer c) = true)
  /\ (Count (AppName c) ";" < appNameLimit)%Z.
Proof.
  rewrite Validate_None_iff, <- credential_holds_iff,
    <- application_name_holds_iff, <- security_posture_holds_iff,
    <- tracing_strategy_holds_iff, <- rollup_names_holds_iff.
  split.
  - intros Hall. repeat split; apply Hall.
  - intros (H1 & H2 & H3 & H4 & H5) i. destruct i; assumption.
Qed.

(** X2. Each of the five errors is returned in exactly one situation: its
    own condition is met and no earlier check fires. In particular
    [errAppNameMissing] is only ever returned for a configuration whose
    credential has the required length. *)
Theorem X2_Validate_rejects_iff (c : Config) :
  (Validate c = Some errLicenseLen <->
   len (License c) <> licenseLength /\ (Enabled c = true \/ License c <> ""))
  /\ (Validate c = Some errAppNameMissing <->
      Enabled c = true /\ AppName c = ""
      /\ len (License c) = licenseLength)
  /\ (Validate c = Some errHighSecurityWithSecurityPolicies <->
      (HighSecurity c = true /\ SecurityPoliciesToken c <> "")
      /\ (len (License c) = licenseLength
          \/ (Enabled c = false /\ License c = ""))
      /\ (Enabled c = true -> AppName c <> ""))
  /\ (Validate c = Some errMixedTracers <->
      (CrossApplicationTracer.Enabled (CrossApplicationTracer c) = true
       /\ DistributedTracer.Enabled (DistributedTracer c) = true)
      /\ (len (License c) = licenseLength
          \/ (Enabled c = false /\ License c = ""))
      /\ (Enabled c = true -> AppName c <> "")
      /\ ~ (HighSecurity c = true /\ SecurityPoliciesToken c <> ""))
  /\ (Validate c = Some errAppNameLimit <->
      (Count (AppName c) ";" >= appNameLimit)%Z
      /\ (len (License c) = licenseLength
          \/ (Enabled c = false /\ License c = ""))
      /\ (Enabled c = true -> AppName c <> "")
      /\ ~ (HighSecurity c = true /\ SecurityPoliciesToken c <> "")
      /\ ~ (CrossApplicationTracer.Enabled (CrossApplicationTracer c) = true
            /\ DistributedTracer.Enabled (DistributedTracer c) = true)).
Proof.
  pose proof (Validate_Some_iff c CredentialLength) as E1.
  pose proof (Validate_Some_iff c ApplicationNamePresent) as E2.
  pose proof (Validate_Some_iff c SecurityPosture) as E3.
  pose proof (Validate_Some_iff c TracingStrategy) as E4.
  pose proof (Validate_Some_iff c RollupNames) as E5.
  cbn [spec_reason] in E1, E2, E3, E4, E5.
  rewrite E1, E2, E3, E4, E5. clear E1 E2 E3 E4 E5.
  rewrite <- credential_violated_iff, <- credential_holds_iff,
    <- application_name_holds_iff, <- security_posture_holds_iff,
    <- security_posture_violated_iff, <- tracing_strategy_holds_iff,
    <- tracing_strategy_violated_iff, <- rollup_names_violated_iff.
  split; [|split; [|split; [|split]]].
  - split; [intros [Hv _]; exact Hv | intros Hv; split; [exact Hv |]].
    intros j Hj. destruct j; simpl in Hj; lia.
  - rewrite application_name_violated_iff. split.
    + intros [[Hen Hname] Hb]. split; [exact Hen | split; [exact Hname |]].
      assert (Hcred : spec_holds CredentialLength c = true)
        by (apply Hb; simpl; lia).
      apply credential_holds_iff in Hcred.
      destruct Hcred as [Hlen | [Hoff _]]; [exact Hlen | congruence].
    + intros (Hen & Hname & Hlen). split; [split; assumption |].
      intros j Hj. destruct j; simpl in Hj; try lia.
      apply credential_holds_iff. left. exact Hlen.
  - split.
    + intros [Hv Hb]. split; [exact Hv | split; apply Hb; simpl; lia].
    + intros (Hv & H1 & H2). split; [exact Hv |].
      intros j Hj. destruct j; simpl in Hj; first [assumption | lia].
  - split.
    + intros [Hv Hb]. split; [exact Hv | repeat split; apply Hb; simpl; lia].
    + intros (Hv & H1 & H2 & H3). split; [exact Hv |].
      intros j Hj. destruct j; simpl in Hj; first [assumption | lia].
  - split.
    + intros [Hv Hb]. split; [exact Hv | repeat split; apply Hb; simpl; lia].
    + intros (Hv & H1 & H2 & H3 & H4). split; [exact Hv |].
      intros j Hj. destruct j; simpl in Hj; first [assumption | lia].
Qed.

(** ** What [Validate] reads of the strings *)

Lemma eqb_empty_congr (s1 s2 : string) :
  (s1 = "" <-> s2 = "") -> String.eqb "" s1 = String.eqb "" s2.
Proof.
  intros Hiff. rewrite !(String.eqb_sym "").
  destruct (String.eqb_spec s1 "") as [H1|H1],
    (String.eqb_spec s2 "") as [H2|H2]; try reflexivity.
  - apply Hiff in H1. contradiction.
  - apply Hiff in H2. contradiction.
Qed.

(** X3. [Validate] reads the credential only through its length, the
    application name only through its emptiness and its number of ';', and
    the security-policy token only through its emptiness: two
    configurations that agree on these and on the four flags get the same
    result, whatever the bytes of the three strings are. *)
Theorem X3_Validate_reads_lengths_only (c1 c2 : Config) :
  Enabled c1 = Enabled c2 ->
  len (License c1) = len (License c2) ->
  (AppName c1 = "" <-> AppName c2 = "") ->
  Count (AppName c1) ";" = Count (AppName c2) ";" ->
  HighSecurity c1 = HighSecurity c2 ->
  (SecurityPoliciesToken c1 = "" <-> SecurityPoliciesToken c2 = "") ->
  CrossApplicationTracer.Enabled (CrossApplicationTracer c1)
  = CrossApplicationTracer.Enabled (CrossApplicationTracer c2) ->
  DistributedTracer.Enabled (DistributedTracer c1)
  = DistributedTracer.Enabled (DistributedTracer c2) ->
  Validate c1 = Validate c2.
Proof.
  intros Hen Hlen Hname Hcount Hhs Htok Hcat Hdt. unfold Validate.
  rewrite Hen, Hlen, Hcount, Hhs, Hcat, Hdt.
  rewrite (eqb_empty_congr _ _ Hname), (eqb_empty_congr _ _ Htok).
  reflexivity.
Qed.

(** ** Editing a configuration *)

(** X4. An accepted configuration stays accepted when the caller disables
    the agent; when the caller enables it, it stays accepted exactly if its
    credential has the required length and its name is non-empty. *)
Theorem X4_enable_disable (c : Config) :
  Validate c = None ->
  Validate (set_Enabled false c) = None
  /\ (Validate (set_Enabled true c) = None <->
      len (License c) = licenseLength /\ AppName c <> "").
Proof.
  intros Hok. rewrite Validate_None_iff in Hok.
  pose proof (Hok CredentialLength) as H1.
  pose proof (Hok ApplicationNamePresent) as H2.
  pose proof (Hok SecurityPosture) as H3.
  pose proof (Hok TracingStrategy) as H4.
  pose proof (Hok RollupNames) as H5.
  cbn [spec_holds] in H1, H2, H3, H4, H5.
  split; [|split].
  - apply Validate_None_iff. intros i.
    destruct i; unfold set_Enabled;
      cbn [spec_holds Enabled License AppName HighSecurity
           SecurityPoliciesToken CrossApplicationTracer DistributedTracer];
      try assumption.
    + destruct (len (License c) =? licenseLength)%Z; [reflexivity |].
      destruct (Enabled c); [discriminate H1 | exact H1].
    + reflexivity.
  - intros Hon. rewrite Validate_None_iff in Hon.
    pose proof (Hon CredentialLength) as G1.
    pose proof (Hon ApplicationNamePresent) as G2.
    unfold set_Enabled in G1, G2.
    cbn [spec_holds Enabled License AppName negb andb orb] in G1, G2.
    rewrite orb_false_r in G1. apply Z.eqb_eq in G1.
    apply negb_true_iff, String.eqb_neq in G2. split; assumption.
  - intros [Hlen Hname]. apply Validate_None_iff. intros i.
    destruct i; unfold set_Enabled;
      cbn [spec_holds Enabled License AppName HighSecurity
           SecurityPoliciesToken CrossApplicationTracer DistributedTracer];
      try assumption.
    + apply Z.eqb_eq in Hlen. rewrite Hlen. reflexivity.
    + apply String.eqb_neq in Hname. rewrite Hname. reflexivity.
Qed.

(** X5. On a default-built configuration with valid inputs in which the
    caller enables distributed tracing, the result is decided by
    cross-application tracing alone: nil once it is switched off,
    [errMixedTracers] while it is on; the order of the two assignments does
    not matter. *)
Theorem X5_tracer_choice_on_defaults (name credential : string) (cat : bool) :
  name <> "" ->
  (Count name ";" < appNameLimit)%Z ->
  len credential = licenseLength ->
  let c0 := NewConfig name credential in
  Validate (set_DistributedTracer_Enabled true
              (set_CrossApplicationTracer_Enabled cat c0))
  = (if cat then Some errMixedTracers else None)
  /\ set_DistributedTracer_Enabled true
       (set_CrossApplicationTracer_Enabled cat c0)
     = set_CrossApplicationTracer_Enabled cat
         (set_DistributedTracer_Enabled true c0).
Proof.
  intros Hname Hcount Hlen c0. subst c0. split; [|reflexivity].
  validate_fields.
  rewrite Hlen, Z.eqb_refl, (eqb_empty_false name Hname), geb_as_ltb.
  apply Z.ltb_lt in Hcount. rewrite Hcount.
  destruct cat; reflexivity.
Qed.

(** X6. On a default-built configuration with valid inputs, high security
    alone and a security-policy token alone are both accepted; the two
    together give [errHighSecurityWithSecurityPolicies]. *)
Theorem X6_security_settings_on_defaults
  (name credential token : string) (hs : bool) :
  name <> "" ->
  (Count name ";" < appNameLimit)%Z ->
  len credential = licenseLength ->
  let c := set_SecurityPoliciesToken token
             (set_HighSecurity hs (NewConfig name credential)) in
  (hs = false \/ token = "" -> Validate c = None)
  /\ (hs = true -> token <> "" ->
      Validate c = Some errHighSecurityWithSecurityPolicies).
Proof.
  intros Hname Hcount Hlen c. subst c. apply Z.ltb_lt in Hcount. split.
  - intros Hone. validate_fields.
    rewrite Hlen, Z.eqb_refl, (eqb_empty_false name Hname), geb_as_ltb, Hcount.
    destruct Hone as [-> | ->]; [reflexivity |].
    destruct hs; reflexivity.
  - intros -> Htok. validate_fields.
    rewrite Hlen, Z.eqb_refl, (eqb_empty_false name Hname),
      (eqb_empty_false token Htok).
    reflexivity.
Qed.

(** ** Rollup names *)

Lemma Count_append (s1 s2 : string) (sep : ascii) :
  Count (String.append s1 s2) sep = (Count s1 sep + Count s2 sep)%Z.
Proof.
  induction s1 as [|b s1 IH]; simpl.
  - reflexivity.
  - rewrite IH. lia.
Qed.

(** Names without a ';' joined by ';': one delimiter between every two. *)
Lemma Count_Join (names : list string) :
  names <> [] ->
  Forall (fun n => Count n ";" = 0%Z) names ->
  Count (Join names ";") ";" = (Z.of_nat (length names) - 1)%Z.
Proof.
  induction names as [|x rest IH]; intros Hne Hall; [congruence |].
  inversion Hall as [|? ? Hx Hrest]; subst.
  destruct rest as [|y rest].
  - simpl. exact Hx.
  - change (Join (x :: y :: rest) ";")
      with (String.append x (String.append ";" (Join (y :: rest) ";"))).
    rewrite !Count_append, Hx, IH by (assumption || discriminate).
    change (Count ";" ";") with 1%Z.
    change (length (x :: y :: rest)) with (S (length (y :: rest))).
    lia.
Qed.

Lemma Join_nonempty (names : list string) (sep : string) :
  names <> [] ->
  Forall (fun n => n <> "") names ->
  Join names sep <> "".
Proof.
  destruct names as [|x rest]; intros Hne Hall; [congruence |].
  inversion Hall as [|? ? Hx _]; subst.
  destruct rest as [|y rest]; [exact Hx |].
  destruct x as [|b x]; [congruence | discriminate].
Qed.

(** X7. The limit is a limit of three names: for a default-built
    configuration with a valid credential whose application name is one or
    more non-empty names without a ';', joined by ';', [Validate] accepts up
    to three names and returns [errAppNameLimit] from four names on. *)
Theorem X7_at_most_three_rollup_names
  (names : list string) (credential : string) :
  names <> [] ->
  Forall (fun n => n <> "") names ->
  Forall (fun n => Count n ";" = 0%Z) names ->
  len credential = licenseLength ->
  Validate (NewConfig (Join names ";") credential)
  = if (length names <=? 3)%nat then None else Some errAppNameLimit.
Proof.
  intros Hne Hnames Hsemi Hlen. validate_fields.
  rewrite Hlen, Z.eqb_refl,
    (eqb_empty_false _ (Join_nonempty names ";" Hne Hnames)),
    geb_as_ltb, (Count_Join names Hne Hsemi).
  cbn [negb andb].
  destruct (Nat.leb_spec (length names) 3) as [Hle|Hgt];
    destruct (Z.ltb_spec (Z.of_nat (length names) - 1) appNameLimit)
      as [Hlt|Hge];
    unfold appNameLimit in *; first [reflexivity | lia].
Qed.

(** ** More on the defaults *)

(** X8. A default-built configuration can only be rejected for its two
    inputs: [Validate] accepts it exactly when the name is non-empty with
    fewer than 3 ';' and the credential has the required length, and it
    never returns [errHighSecurityWithSecurityPolicies] or
    [errMixedTracers] on it. *)
Theorem X8_NewConfig_rejected_for_inputs_only (name credential : string) :
  (Validate (NewConfig name credential) = None <->
   name <> "" /\ (Count name ";" < appNameLimit)%Z
   /\ len credential = licenseLength)
  /\ Validate (NewConfig name credential)
     <> Some errHighSecurityWithSecurityPolicies
  /\ Validate (NewConfig name credential) <> Some errMixedTracers.
Proof.
  validate_fields. rewrite geb_as_ltb, (String.eqb_sym "").
  destruct (Z.eqb_spec (len credential) licenseLength) as [Hlen|Hlen];
    destruct (String.eqb_spec name "") as [Hname|Hname];
    destruct (Z.ltb_spec (Count name ";") appNameLimit) as [Hlt|Hge];
    cbn [negb andb];
    (split; [split; [intros H; try discriminate H | intros (H1 & H2 & H3)]
            | split; discriminate]);
    first [ repeat split; assumption | contradiction | lia ].
Qed.

(** X9. The thresholds of a default-built configuration, in nanoseconds:
    transaction traces are kept relative to apdex (with 500ms as the fixed
    duration behind it), segments are recorded from 2ms, slow queries from
    10ms and stack traces from 500ms; the three thresholds increase in this
    order and fit a [time.Duration]. *)
Theorem X9_NewConfig_thresholds (appName credential : string) :
  let c := NewConfig appName credential in
  let tr := TransactionTracer c in
  let sq := DatastoreTracer.SlowQuery (DatastoreTracer c) in
  Threshold.IsApdexFailing (TransactionTracer.Threshold tr) = true
  /\ Threshold.Duration (TransactionTracer.Threshold tr) = 500000000%Z
  /\ TransactionTracer.SegmentThreshold tr = 2000000%Z
  /\ SlowQuery.Threshold sq = 10000000%Z
  /\ TransactionTracer.StackTraceThreshold tr = 500000000%Z
  /\ (0 < TransactionTracer.SegmentThreshold tr
       < SlowQuery.Threshold sq)%Z
  /\ (SlowQuery.Threshold sq
       < TransactionTracer.StackTraceThreshold tr < 2 ^ 63)%Z.
Proof.
  intros c tr sq. subst c tr sq. unfold NewConfig, Millisecond.
  cbn [TransactionTracer DatastoreTracer DatastoreTracer.SlowQuery
       TransactionTracer.Threshold TransactionTracer.SegmentThreshold
       TransactionTracer.StackTraceThreshold Threshold.IsApdexFailing
       Threshold.Duration SlowQuery.Threshold].
  repeat split; first [reflexivity | lia].
Qed.


End ConfigModel.

(** ** The theorems at concrete configurations

    The interface-typed fields are instantiated at [unit]. The credential
    of the examples is a 40-byte string. *)

Lemma C1_witness :
  Validate (NewConfig unit unit "svc" "0123456789abcdef0123456789abcdef01234567") = None.
Proof.
  apply C1_Validate_NewConfig_ok; [discriminate | reflexivity | reflexivity].
Defined.

(** A configuration violating four invariants at once (credential length,
    security posture, tracing strategy, rollup names): only the first is
    reported. *)
Lemma C2_witness :
  let c := set_SecurityPoliciesToken "token"
             (set_HighSecurity true
                (set_DistributedTracer_Enabled true
                   (NewConfig unit unit "a;b;c;d" "short"))) in
  Validate c = Some errLicenseLen
  /\ Validate c <> Some errHighSecurityWithSecurityPolicies
  /\ Validate c <> Some errMixedTracers
  /\ Validate c <> Some errAppNameLimit.
Proof.
  intros c.
  destruct (C2_first_violation_reported unit unit c) as (_ & Hrep & Hnever).
  split; [|split; [|split]].
  - apply (Hrep CredentialLength); [reflexivity |].
    intros j Hj. destruct j; simpl in Hj; lia.
  - apply (Hnever CredentialLength SecurityPosture);
      [simpl; lia | reflexivity | reflexivity].
  - apply (Hnever CredentialLength TracingStrategy);
      [simpl; lia | reflexivity | reflexivity].
  - apply (Hnever CredentialLength RollupNames);
      [simpl; lia | reflexivity | reflexivity].
Defined.

Lemma C3_witness :
  Validate (NewConfig unit unit "svc" "") = Some errLicenseLen
  /\ Validate (set_Enabled false (NewConfig unit unit "svc" ""))
     <> Some errLicenseLen
  /\ Validate (set_Enabled false (NewConfig unit unit "svc" "0123456789abcdef0123456789abcdef01234567"))
     <> Some errLicenseLen
  /\ Validate (set_Enabled false (NewConfig unit unit "svc" "short"))
     = Some errLicenseLen.
Proof.
  split; [|split; [|split]].
  - destruct (C3_credential_check unit unit (NewConfig unit unit "svc" ""))
      as (Hon & _ & _).
    apply Hon; [reflexivity | discriminate].
  - destruct (C3_credential_check unit unit
                (set_Enabled false (NewConfig unit unit "svc" "")))
      as (_ & Hoff & _).
    apply Hoff; [reflexivity | left; reflexivity].
  - destruct (C3_credential_check unit unit
                (set_Enabled false (NewConfig unit unit "svc" "0123456789abcdef0123456789abcdef01234567")))
      as (_ & Hoff & _).
    apply Hoff; [reflexivity | right; reflexivity].
  - destruct (C3_credential_check unit unit
                (set_Enabled false (NewConfig unit unit "svc" "short")))
      as (_ & _ & Hother).
    apply Hother; [reflexivity | discriminate | discriminate].
Defined.

(** An enabled configuration with an empty name and an empty credential is
    rejected for its credential, not for its name. *)
Lemma C4_counterexample :
  let c := NewConfig unit unit "" "" in
  Enabled c = true /\ AppName c = ""
  /\ Validate c = Some errLicenseLen
  /\ Validate c <> Some errAppNameMissing.
Proof.
  intros c. subst c. repeat split. vm_compute. discriminate.
Qed.

Lemma C4_witness :
  Validate (NewConfig unit unit "" "0123456789abcdef0123456789abcdef01234567") = Some errAppNameMissing.
Proof.
  apply C4_empty_name_after_credential; reflexivity.
Defined.

(** High security with a token is not reported when an earlier check fails:
    with a credential of the wrong length the result is [errLicenseLen],
    with an empty name (enabled) it is [errAppNameMissing]. *)
Lemma C5_counterexample :
  let c1 := set_SecurityPoliciesToken "token"
              (set_HighSecurity true (NewConfig unit unit "svc" "short")) in
  let c2 := set_SecurityPoliciesToken "token"
              (set_HighSecurity true (NewConfig unit unit "" "0123456789abcdef0123456789abcdef01234567")) in
  (HighSecurity c1 = true /\ SecurityPoliciesToken c1 <> ""
   /\ Validate c1 = Some errLicenseLen
   /\ Validate c1 <> Some errHighSecurityWithSecurityPolicies)
  /\ (HighSecurity c2 = true /\ SecurityPoliciesToken c2 <> ""
      /\ Validate c2 = Some errAppNameMissing
      /\ Validate c2 <> Some errHighSecurityWithSecurityPolicies).
Proof.
  intros c1 c2. subst c1 c2.
  split; (split; [reflexivity | split; [discriminate | split]]);
    first [reflexivity | vm_compute; discriminate].
Qed.

Lemma C5_witness :
  Validate
    (set_SecurityPoliciesToken "token"
       (set_HighSecurity true
          (set_DistributedTracer_Enabled true
             (NewConfig unit unit "a;b;c;d" "0123456789abcdef0123456789abcdef01234567"))))
  = Some errHighSecurityWithSecurityPolicies.
Proof.
  apply C5_security_policy_conflict; [reflexivity | discriminate | reflexivity | reflexivity].
Defined.

Lemma C6_witness :
  Validate (set_DistributedTracer_Enabled true (NewConfig unit unit "svc" "0123456789abcdef0123456789abcdef01234567"))
  = Some errMixedTracers.
Proof.
  apply (C6_mixed_tracers_on_defaults unit unit "svc" "0123456789abcdef0123456789abcdef01234567");
    [discriminate | reflexivity | reflexivity].
Defined.

Lemma C7_witness :
  Validate (NewConfig unit unit "a;b;c" "0123456789abcdef0123456789abcdef01234567") = None
  /\ Validate (NewConfig unit unit "a;b;c;d" "0123456789abcdef0123456789abcdef01234567") = Some errAppNameLimit.
Proof.
  split.
  - destruct (C7_rollup_name_limit unit unit (NewConfig unit unit "a;b;c" "0123456789abcdef0123456789abcdef01234567"))
      as (_ & Hunder & _); [reflexivity .. |].
    apply Hunder. reflexivity.
  - destruct (C7_rollup_name_limit unit unit
                (NewConfig unit unit "a;b;c;d" "0123456789abcdef0123456789abcdef01234567"))
      as ([_ Hover] & _); [reflexivity .. |].
    apply Hover. discriminate.
Defined.

(** The default configuration and a hand-built one that shares its seven
    validated fields and differs in every other field. *)
Lemma C9_witness :
  Validate (NewConfig unit unit "svc" "0123456789abcdef0123456789abcdef01234567")
  = Validate
      (mkConfig "svc" "0123456789abcdef0123456789abcdef01234567" (Some tt) true {["team" := "core"]} false ""
         (CustomInsightsEvents.mk false)
         (TransactionEvents.mk false
            (AttributeDestinationConfig.mk false ["request.*"] ["secret"]))
         (ErrorCollector.mk false false [500%Z; 503%Z]
            (AttributeDestinationConfig.mk false [] ["secret"]))
         (TransactionTracer.mk false (Threshold.mk false 1%Z) 7%Z 9%Z
            (AttributeDestinationConfig.mk false [] []))
         "host-1" (Some tt)
         (Utilization.mk false false false false false false 4%Z 1024%Z "billing")
         (CrossApplicationTracer.mk true) (DistributedTracer.mk false)
         (SpanEvents.mk false)
         (DatastoreTracer.mk false false false (SlowQuery.mk false 0%Z))
         (AttributeDestinationConfig.mk false ["a"] ["b"])
         (RuntimeSampler.mk false)).
Proof.
  apply C9_Validate_reads_seven_fields; reflexivity.
Defined.

(** A disabled configuration whose name has three delimiters is not
    rejected for its rollup names when an earlier check fails: a credential
    of the wrong length gives [errLicenseLen], high security with a token
    gives [errHighSecurityWithSecurityPolicies], both tracers give
    [errMixedTracers]; and a disabled configuration with an empty name and
    a credential of the wrong length is not accepted. *)
Lemma C10_counterexample :
  let c1 := set_Enabled false (NewConfig unit unit "a;b;c;d" "short") in
  let c2 := set_SecurityPoliciesToken "token"
              (set_HighSecurity true
                 (set_Enabled false (NewConfig unit unit "a;b;c;d" ""))) in
  let c3 := set_DistributedTracer_Enabled true
              (set_Enabled false (NewConfig unit unit "a;b;c;d" "")) in
  let c4 := set_Enabled false (NewConfig unit unit "" "short") in
  (Enabled c1 = false /\ Count (AppName c1) ";" = 3%Z
   /\ Validate c1 = Some errLicenseLen
   /\ Validate c1 <> Some errAppNameLimit)
  /\ (Enabled c2 = false /\ Count (AppName c2) ";" = 3%Z
      /\ Validate c2 = Some errHighSecurityWithSecurityPolicies)
  /\ (Enabled c3 = false /\ Count (AppName c3) ";" = 3%Z
      /\ Validate c3 = Some errMixedTracers)
  /\ (Enabled c4 = false /\ AppName c4 = ""
      /\ Validate c4 = Some errLicenseLen).
Proof.
  intros c1 c2 c3 c4. subst c1 c2 c3 c4.
  repeat split. vm_compute. discriminate.
Qed.

Lemma C10_witness :
  Validate (set_Enabled false (NewConfig unit unit "" "")) = None
  /\ Validate (set_Enabled false (NewConfig unit unit "a;b;c;d" ""))
     = Some errAppNameLimit.
Proof.
  split.
  - destruct (C10_disabled_name_checks unit unit
                (set_Enabled false (NewConfig unit unit "" "")))
      as (_ & Hempty & _); [reflexivity |].
    apply Hempty; reflexivity.
  - destruct (C10_disabled_name_checks unit unit
                (set_Enabled false (NewConfig unit unit "a;b;c;d" "")))
      as (_ & _ & Hlimit); [reflexivity |].
    apply Hlimit; [discriminate | reflexivity ..].
Defined.

(** Two configurations with different credentials, names and tokens of the
    same lengths, emptiness and number of ';'. *)
Lemma X3_witness :
  Validate (set_SecurityPoliciesToken "abc" (NewConfig unit unit "svc;a" "0123456789abcdef0123456789abcdef01234567"))
  = Validate
      (set_SecurityPoliciesToken "some other token"
         (NewConfig unit unit "x;other" "zyxwvutsrqponmlkjihgfedcbazyxwvutsrqponm")).
Proof.
  apply X3_Validate_reads_lengths_only;
    first [reflexivity | split; discriminate].
Defined.

(** A disabled configuration without name and credential is accepted and
    stays so when disabled again; enabling it is accepted only under the
    two conditions, which it does not meet. *)
Lemma X4_witness :
  let c := set_Enabled false (NewConfig unit unit "" "") in
  Validate c = None
  /\ Validate (set_Enabled false c) = None
  /\ (Validate (set_Enabled true c) = None <->
      len (License c) = licenseLength /\ AppName c <> "").
Proof.
  intros c. split; [reflexivity |].
  apply (X4_enable_disable unit unit c). reflexivity.
Defined.

Lemma X5_witness :
  Validate
    (set_DistributedTracer_Enabled true
       (set_CrossApplicationTracer_Enabled false
          (NewConfig unit unit "svc" "0123456789abcdef0123456789abcdef01234567"))) = None
  /\ Validate
       (set_DistributedTracer_Enabled true
          (set_CrossApplicationTracer_Enabled true
             (NewConfig unit unit "svc" "0123456789abcdef0123456789abcdef01234567"))) = Some errMixedTracers.
Proof.
  split.
  - apply (X5_tracer_choice_on_defaults unit unit "svc" "0123456789abcdef0123456789abcdef01234567" false);
      [discriminate | reflexivity | reflexivity].
  - apply (X5_tracer_choice_on_defaults unit unit "svc" "0123456789abcdef0123456789abcdef01234567" true);
      [discriminate | reflexivity | reflexivity].
Defined.

Lemma X6_witness :
  Validate (set_SecurityPoliciesToken "token"
              (set_HighSecurity false (NewConfig unit unit "svc" "0123456789abcdef0123456789abcdef01234567")))
  = None
  /\ Validate (set_SecurityPoliciesToken ""
                 (set_HighSecurity true (NewConfig unit unit "svc" "0123456789abcdef0123456789abcdef01234567")))
     = None
  /\ Validate (set_SecurityPoliciesToken "token"
                 (set_HighSecurity true (NewConfig unit unit "svc" "0123456789abcdef0123456789abcdef01234567")))
     = Some errHighSecurityWithSecurityPolicies.
Proof.
  split; [|split].
  - destruct (X6_security_settings_on_defaults unit unit "svc" "0123456789abcdef0123456789abcdef01234567" "token" false)
      as [Hone _]; [discriminate | reflexivity | reflexivity |].
    apply Hone. left. reflexivity.
  - destruct (X6_security_settings_on_defaults unit unit "svc" "0123456789abcdef0123456789abcdef01234567" "" true)
      as [Hone _]; [discriminate | reflexivity | reflexivity |].
    apply Hone. right. reflexivity.
  - destruct (X6_security_settings_on_defaults unit unit "svc" "0123456789abcdef0123456789abcdef01234567" "token" true)
      as [_ Hboth]; [discriminate | reflexivity | reflexivity |].
    apply Hboth; [reflexivity | discriminate].
Defined.

Lemma X7_witness :
  Validate (NewConfig unit unit (Join ["web"; "api"; "jobs"] ";") "0123456789abcdef0123456789abcdef01234567") = None
  /\ Validate (NewConfig unit unit (Join ["web"; "api"; "jobs"; "cron"] ";") "0123456789abcdef0123456789abcdef01234567")
     = Some errAppNameLimit.
Proof.
  split.
  - apply (X7_at_most_three_rollup_names unit unit ["web"; "api"; "jobs"] "0123456789abcdef0123456789abcdef01234567");
      first [ discriminate | reflexivity
            | repeat constructor; first [discriminate | reflexivity] ].
  - apply (X7_at_most_three_rollup_names unit unit
             ["web"; "api"; "jobs"; "cron"] "0123456789abcdef0123456789abcdef01234567");
      first [ discriminate | reflexivity
            | repeat constructor; first [discriminate | reflexivity] ].
Defined.
